(** * Jodit: the AI-assistant plugin and the [component] decorator

    A shallow embedding of

      - [src/plugins/ai-assistant/ai-assistant.ts] (module [AiAssistant]);
      - [src/core/decorators/component.ts]          (module [Component]).

    The plugin is glue code over the editor host ([IJodit]): everything it
    does is a call on the host.  A plugin method is therefore embedded as a
    computation that threads the plugin object and returns the host calls
    it makes, in order; what the host answers is an oracle that may depend
    on every call made so far.  Two operations can fail: the awaited
    callback ends as the host says (fulfilled, rejected, or not at all),
    and [jodit.e.fire] throws what a listener of the event throws; an
    exception that leaves a promise handler rejects the chained promise.
    The other calls on the host return normally.  The continuation of the
    promise is sequenced after the call that created it.

    The decorator is embedded over chains of class declarations: what
    [new] does on a class is the run of its constructors, innermost
    [super(...)] first. *)

From Stdlib Require Import String List Bool Arith Lia.
Import ListNotations.
Local Open Scope string_scope.
Local Open Scope list_scope.

Module AiAssistant.

(** ** Values exchanged with the host *)

(** A thrown value or rejection reason: an [Error] object.  The catch
    handler of [onInvokeAiAssistant] reads [error.message]; [isAbortError]
    looks at the error's kind. *)
Record JsError : Type := mkError { name : string; message : string }.

(** How an awaited promise ends: [resolve(v)], [reject(e)], or never. *)
Inductive Promise (A : Type) : Type :=
| Fulfilled (value : A)
| Rejected (error : JsError)
| Pending.
Arguments Fulfilled {A} value.
Arguments Rejected {A} error.
Arguments Pending {A}.

(** How a call ends: it returns, or it throws. *)
Inductive Completion (A : Type) : Type :=
| Returns (value : A)
| Throws (error : JsError).
Arguments Returns {A} value.
Arguments Throws {A} error.

(** The object returned by [jodit.dlg(...)]. *)
Record IDialog : Type := mkDialog { dialog_ref : nat }.

(** The object built by [new UiAiAssistant(jodit, {onInsertAfter, onInsert})].
    Both closures capture the [__dialog] constant of the getter that built
    them; [ui_dialog] is that captured variable. *)
Record UiAiAssistant : Type := mkUi { ui_ref : nat; ui_dialog : IDialog }.

(** [jodit.s.current()] : a node of the document, or [null]. *)
Definition Node : Type := nat.

(** The option literal passed to [jodit.dlg]. *)
Record DialogOptions : Type := mkDialogOptions {
  dlg_buttons : list string;
  closeOnClickOverlay : bool;
  closeOnEsc : bool;
  resizable : bool;
  draggable : bool;
  minHeight : nat
}.

Record Button : Type := mkButton { button_name : string; button_group : string }.

(** ** Calls on the host, as the plugin makes them *)
Inductive HostCall : Type :=
| ExtendLang                                                 (* extendLang(langs) *)
| Dlg (options : DialogOptions) (result : IDialog)           (* jodit.dlg(options) *)
| NewUiAiAssistant (result : UiAiAssistant)                  (* new UiAiAssistant(jodit, {...}) *)
| DialogOpen (d : IDialog) (content : UiAiAssistant) (title : string)
| DialogClose (d : IDialog)
| DialogDestruct (d : IDialog)
| SetPrompt (c : UiAiAssistant) (prompt : string)
| UiDestruct (c : UiAiAssistant)
| SFocus                                                     (* jodit.s.focus() *)
| SHtml (result : string)                                    (* jodit.s.html *)
| SCurrent (result : option Node)                            (* jodit.s.current() *)
| SSetCursorAfter (n : option Node)
| SInsertHTML (html : string)
| AiAssistantCallback (prompt selectedText : string)         (* jodit.o.aiAssistant.aiAssistantCallback!(..) *)
| EFire (event payload : string)                             (* jodit.e.fire(event, payload) *)
| MessageError (msg : string).                               (* jodit.message.error(msg) *)

(** The host.  Each field answers one kind of call, given the calls made
    so far; [host_e_fire] is what a listener of the fired event throws, if
    one does.  [isAbortError] is the checker imported from
    [jodit/core/helpers/checker/is-abort-error]. *)
Record IJodit : Type := mkJodit {
  host_dlg : list HostCall -> DialogOptions -> nat;
  host_new_ui : list HostCall -> nat;
  host_s_html : list HostCall -> string;
  host_s_current : list HostCall -> option Node;
  host_aiAssistantCallback : list HostCall -> string -> string -> Promise string;
  host_e_fire : list HostCall -> string -> string -> option JsError;
  isAbortError : JsError -> bool
}.

(** ** The plugin object *)

(** The own properties that [@cache] defines on the instance are the two
    [cached_*] fields: [None] while the getter has not run. *)
Record aiAssistant : Type := mkPlugin {
  buttons : list Button;
  cached___dialog : option IDialog;
  cached___container : option UiAiAssistant
}.

(** ** Computations

    [m this past] runs [m] on the plugin object [this] after the host has
    seen the calls [past]; it returns the value, the plugin object
    afterwards and the calls made by [m] itself. *)
Definition M (A : Type) : Type :=
  aiAssistant -> list HostCall -> A * aiAssistant * list HostCall.

Definition ret {A} (a : A) : M A := fun this _ => (a, this, []).

Definition bind {A B} (m : M A) (f : A -> M B) : M B :=
  fun this past =>
    let '(a, this1, l1) := m this past in
    let '(b, this2, l2) := f a this1 (past ++ l1) in
    (b, this2, l1 ++ l2).

Notation "x <- m ;; k" := (bind m (fun x => k))
  (at level 61, m at next level, right associativity).
Notation "m ;; k" := (bind m (fun _ => k))
  (at level 61, right associativity).

(** A call whose answer the host computes from the history. *)
Definition ask {A} (answer : list HostCall -> A) (call : A -> HostCall) : M A :=
  fun this past => let a := answer past in (a, this, [call a]).

(** A call made for its effect only. *)
Definition tell (call : HostCall) : M unit := fun this _ => (tt, this, [call]).

Definition value_of {A} (r : A * aiAssistant * list HostCall) : A := fst (fst r).
Definition this_of {A} (r : A * aiAssistant * list HostCall) : aiAssistant := snd (fst r).
Definition calls_of {A} (r : A * aiAssistant * list HostCall) : list HostCall := snd r.

Section Plugin.

Variable jodit : IJodit.

(** *** Host calls *)
Definition jodit_dlg (options : DialogOptions) : M IDialog :=
  ask (fun past => mkDialog (host_dlg jodit past options)) (Dlg options).

Definition new_UiAiAssistant (__dialog : IDialog) : M UiAiAssistant :=
  ask (fun past => mkUi (host_new_ui jodit past) __dialog) NewUiAiAssistant.

Definition s_focus : M unit := tell SFocus.
Definition s_html : M string := ask (host_s_html jodit) SHtml.
Definition s_current : M (option Node) := ask (host_s_current jodit) SCurrent.
Definition s_setCursorAfter (n : option Node) : M unit := tell (SSetCursorAfter n).
Definition s_insertHTML (html : string) : M unit := tell (SInsertHTML html).
(** [jodit.e.fire(event, payload)] runs the listeners of [event]: the call
    throws when one of them does. *)
Definition e_fire (event payload : string) : M (Completion unit) :=
  fun this past =>
    (match host_e_fire jodit past event payload with
     | None => Returns tt
     | Some error => Throws error
     end,
     this, [EFire event payload]).
Definition message_error (msg : string) : M unit := tell (MessageError msg).

(** [await jodit.o.aiAssistant.aiAssistantCallback!(prompt, selectedText)]:
    the call is made, and the host says how the returned promise ends. *)
Definition aiAssistantCallback (prompt selectedText : string) : M (Promise string) :=
  fun this past =>
    (host_aiAssistantCallback jodit past prompt selectedText, this,
     [AiAssistantCallback prompt selectedText]).

(** *** Promise chaining *)

(** The promise a handler's completion settles: a handler that throws
    rejects it. *)
Definition settle {A} (r : Completion A) : Promise A :=
  match r with
  | Returns a => Fulfilled a
  | Throws e => Rejected e
  end.

(** [p.then(onFulfilled)] *)
Definition promise_then {A B} (p : Promise A) (onFulfilled : A -> M (Completion B))
  : M (Promise B) :=
  match p with
  | Fulfilled v => r <- onFulfilled v ;; ret (settle r)
  | Rejected e => ret (Rejected e)
  | Pending => ret Pending
  end.

(** [p.catch(onRejected)] *)
Definition promise_catch {A} (p : Promise A) (onRejected : JsError -> M (Completion A))
  : M (Promise A) :=
  match p with
  | Fulfilled v => ret (Fulfilled v)
  | Rejected e => r <- onRejected e ;; ret (settle r)
  | Pending => ret Pending
  end.

(** [jodit.async.promise(executor)] hands [resolve] and [reject] to the
    executor: the promise ends the way the executor ends it.  A promise
    that the host rejects itself, with its abort error, ends as [Rejected]
    with an error that [isAbortError] accepts. *)
Definition async_promise {A} (executor : M (Promise A)) : M (Promise A) := executor.

(** *** [@cache] and [cached] *)

(** Modelled from the spec: the [@cache] decorator of
    [jodit/core/decorators/cache/cache] is not among the sources.  The spec
    has the dialog and the container "cached" and "created lazily": the
    getter's body runs on the first access, its value is stored on the
    instance, and later accesses read the stored value. *)
Definition cache {A} (slot : aiAssistant -> option A)
    (store : A -> aiAssistant -> aiAssistant) (getter : M A) : M A :=
  fun this past =>
    match slot this with
    | Some v => (v, this, [])
    | None =>
        let '(v, this1, l) := getter this past in
        (v, store v this1, l)
    end.

(** Modelled from the spec: the [cached] helper of the same module is not
    among the sources.  It reads the stored value, if any, and never runs
    the getter. *)
Definition cached {A} (slot : aiAssistant -> option A) : M (option A) :=
  fun this _ => (slot this, this, []).

Definition store___dialog (d : IDialog) (this : aiAssistant) : aiAssistant :=
  mkPlugin (buttons this) (Some d) (cached___container this).

Definition store___container (c : UiAiAssistant) (this : aiAssistant) : aiAssistant :=
  mkPlugin (buttons this) (cached___dialog this) (Some c).

(** *** The class [aiAssistant] *)

(** The literal given to [jodit.dlg] by the [__dialog] getter. *)
Definition dialog_options : DialogOptions :=
  mkDialogOptions ["fullsize"; "dialog.close"] true true false true 160.

Definition __dialog : M IDialog :=
  cache cached___dialog store___dialog (jodit_dlg dialog_options).

Definition __container : M UiAiAssistant :=
  cache cached___container store___container
    (d <- __dialog ;;
     new_UiAiAssistant d).

(** The two closures handed to [UiAiAssistant]; the container calls them. *)
Definition onInsertAfter (c : UiAiAssistant) (html : string) : M unit :=
  s_focus ;;
  n <- s_current ;;
  s_setCursorAfter n ;;
  s_insertHTML html ;;
  tell (DialogClose (ui_dialog c)).

Definition onInsert (c : UiAiAssistant) (html : string) : M unit :=
  s_focus ;;
  s_insertHTML html ;;
  tell (DialogClose (ui_dialog c)).

(** [constructor(jodit) { super(jodit); extendLang(langs); }] *)
Definition constructor : aiAssistant * list HostCall :=
  (mkPlugin [mkButton "ai-commands" "insert"; mkButton "ai-assistant" "insert"] None None,
   [ExtendLang]).

Definition afterInit : M unit := ret tt.

Definition onGenerateAiAssistantForm (prompt : string) : M unit :=
  d <- __dialog ;;
  c <- __container ;;
  tell (DialogOpen d c "AI Assistant") ;;
  c' <- __container ;;
  tell (SetPrompt c' prompt).

Definition onInvokeAiAssistant (prompt : string) : M unit :=
  s_focus ;;
  selectedText <- s_html ;;
  p <- async_promise
         (r <- aiAssistantCallback prompt selectedText ;;
          match r with
          | Fulfilled result => ret (Fulfilled result)     (* resolve(result) *)
          | Rejected error => ret (Rejected error)         (* reject(error) *)
          | Pending => ret Pending                         (* the await does not return *)
          end) ;;
  p1 <- promise_then p (fun htmlFragment =>
          e_fire "ai-assistant-response" htmlFragment) ;;
  _ <- promise_catch p1 (fun error =>
          if isAbortError jodit error then ret (Returns tt)
          else
            message_error (message error) ;;
            e_fire "ai-assistant-error" (message error)) ;;
  ret tt.

(** [o?.f()] *)
Definition opt_iter {A} (o : option A) (f : A -> M unit) : M unit :=
  match o with
  | Some a => f a
  | None => ret tt
  end.

Definition beforeDestruct : M unit :=
  c <- cached cached___container ;;
  opt_iter c (fun c => tell (UiDestruct c)) ;;
  d <- cached cached___dialog ;;
  opt_iter d (fun d => tell (DialogDestruct d)).

(** The [@watch] decorators bind the two handlers to events of the editor's
    event bus. *)
Definition watch (event : string) (prompt : string) : M unit :=
  if String.eqb event ":generateAiAssistantForm.ai-assistant" then
    onGenerateAiAssistantForm prompt
  else if String.eqb event ":invokeAiAssistant" then
    onInvokeAiAssistant prompt
  else ret tt.

End Plugin.

(** ** The life of a plugin object *)

(** What can happen to the plugin between its construction and its
    teardown: its getters are read, the event bus delivers an event, or the
    container calls one of the two closures it was given. *)
Inductive Use : Type :=
| ReadDialog
| ReadContainer
| Deliver (event prompt : string)
| CallOnInsert (html : string)
| CallOnInsertAfter (html : string).

Definition use (jodit : IJodit) (u : Use) : M unit :=
  match u with
  | ReadDialog => _ <- __dialog jodit ;; ret tt
  | ReadContainer => _ <- __container jodit ;; ret tt
  | Deliver event prompt => watch jodit event prompt
  | CallOnInsert html =>
      c <- cached cached___container ;;
      opt_iter c (fun c => onInsert c html)
  | CallOnInsertAfter html =>
      c <- cached cached___container ;;
      opt_iter c (fun c => onInsertAfter jodit c html)
  end.

Fixpoint uses (jodit : IJodit) (us : list Use) : M unit :=
  match us with
  | [] => ret tt
  | u :: us => use jodit u ;; uses jodit us
  end.

(** [new aiAssistant(jodit)] followed by [us]. *)
Definition lifetime (jodit : IJodit) (us : list Use) (past : list HostCall)
  : unit * aiAssistant * list HostCall :=
  let '(this, l0) := constructor in
  let '(_, this1, l1) := uses jodit us this (past ++ l0) in
  (tt, this1, l0 ++ l1).

(** ** One invocation of [onInvokeAiAssistant] *)

(** What [jodit.s.html] answers once the editor has been focused. *)
Definition selectedText (jodit : IJodit) (past : list HostCall) : string :=
  host_s_html jodit (past ++ [SFocus]).

(** How the callback called by this invocation ends. *)
Definition callback_outcome (jodit : IJodit) (past : list HostCall) (prompt : string)
  : Promise string :=
  host_aiAssistantCallback jodit
    ((past ++ [SFocus]) ++ [SHtml (selectedText jodit past)])
    prompt (selectedText jodit past).

(** What the listeners of the response event of this invocation throw, if
    anything. *)
Definition response_listener (jodit : IJodit) (past : list HostCall)
    (prompt htmlFragment : string) : option JsError :=
  host_e_fire jodit
    (((past ++ [SFocus]) ++ [SHtml (selectedText jodit past)]) ++
     [AiAssistantCallback prompt (selectedText jodit past)])
    "ai-assistant-response" htmlFragment.

(** What the catch handler does with an error. *)
Definition reported (jodit : IJodit) (error : JsError) : list HostCall :=
  if isAbortError jodit error then []
  else [MessageError (message error); EFire "ai-assistant-error" (message error)].

(** The calls every invocation starts with. *)
Definition invocation (jodit : IJodit) (past : list HostCall) (prompt : string)
  : list HostCall :=
  [SFocus; SHtml (selectedText jodit past);
   AiAssistantCallback prompt (selectedText jodit past)].

(** ** Reading a list of calls *)

Definition dialogs_created (l : list HostCall) : list IDialog :=
  flat_map (fun c => match c with Dlg _ d => [d] | _ => [] end) l.

Definition containers_created (l : list HostCall) : list UiAiAssistant :=
  flat_map (fun c => match c with NewUiAiAssistant u => [u] | _ => [] end) l.

Definition is_construction (c : HostCall) : bool :=
  match c with
  | Dlg _ _ | NewUiAiAssistant _ => true
  | _ => false
  end.

Definition is_destruct (c : HostCall) : bool :=
  match c with
  | DialogDestruct _ | UiDestruct _ => true
  | _ => false
  end.

Definition is_callback (c : HostCall) : bool :=
  match c with
  | AiAssistantCallback _ _ => true
  | _ => false
  end.

Definition is_fire (event : string) (c : HostCall) : bool :=
  match c with
  | EFire e _ => String.eqb e event
  | _ => false
  end.

Definition is_message (c : HostCall) : bool :=
  match c with
  | MessageError _ => true
  | _ => false
  end.

(** What the user or a listener of the event bus gets to see. *)
Definition is_notification (c : HostCall) : bool :=
  match c with
  | EFire _ _ | MessageError _ => true
  | _ => false
  end.

Definition is_insertHTML (c : HostCall) : bool :=
  match c with
  | SInsertHTML _ => true
  | _ => false
  end.

Definition is_close (c : HostCall) : bool :=
  match c with
  | DialogClose _ => true
  | _ => false
  end.

Definition option_list {A} (o : option A) : list A :=
  match o with
  | Some a => [a]
  | None => []
  end.

(** The plugin object agrees with the calls made for it: what is cached is
    what was created, and the container's closures hold the cached
    dialog. *)
Definition agrees (this : aiAssistant) (l : list HostCall) : Prop :=
  dialogs_created l = option_list (cached___dialog this) /\
  containers_created l = option_list (cached___container this) /\
  (forall c, cached___container this = Some c ->
             cached___dialog this = Some (ui_dialog c)).

(** A computation keeps the agreement. *)
Definition preserves {A} (m : M A) : Prop :=
  forall this past l0,
    agrees this l0 ->
    agrees (this_of (m this past)) (l0 ++ calls_of (m this past)).

(** ** Sample hosts *)

Definition isAbortError_by_name (e : JsError) : bool :=
  String.eqb (name e) "AbortError".

(** A host whose selection is [<b>sel</b>] and whose callback ends as
    [outcome]. *)
Definition sample_host (outcome : Promise string) : IJodit :=
  mkJodit (fun past _ => List.length past)
          (fun past => List.length past)
          (fun _ => "<b>sel</b>")
          (fun _ => Some 7)
          (fun _ _ _ => outcome)
          (fun _ _ _ => None)
          isAbortError_by_name.

Definition host_resolving : IJodit := sample_host (Fulfilled "<p>hi</p>").
Definition host_rejecting : IJodit := sample_host (Rejected (mkError "Error" "boom")).
Definition host_aborting : IJodit := sample_host (Rejected (mkError "AbortError" "aborted")).

(** A host whose callback resolves and where a listener of the response
    event throws. *)
Definition host_listener_throwing : IJodit :=
  mkJodit (fun past _ => List.length past)
          (fun past => List.length past)
          (fun _ => "<b>sel</b>")
          (fun _ => Some 7)
          (fun _ _ _ => Fulfilled "<p>hi</p>")
          (fun _ event _ =>
             if String.eqb event "ai-assistant-response"
             then Some (mkError "Error" "listener failed") else None)
          isAbortError_by_name.

Definition sample_plugin : aiAssistant := fst constructor.

(** ** Further readings of a list of calls *)

(** Calls that create, show, change or destroy the dialog or the container,
    or that change the document. *)
Definition is_ui_or_document_call (c : HostCall) : bool :=
  match c with
  | Dlg _ _ | NewUiAiAssistant _ | DialogOpen _ _ _ | DialogClose _
  | DialogDestruct _ | SetPrompt _ _ | UiDestruct _
  | SSetCursorAfter _ | SInsertHTML _ => true
  | _ => false
  end.

Definition dialog_eqb (d1 d2 : IDialog) : bool :=
  Nat.eqb (dialog_ref d1) (dialog_ref d2).

Definition ui_eqb (c1 c2 : UiAiAssistant) : bool :=
  Nat.eqb (ui_ref c1) (ui_ref c2) && dialog_eqb (ui_dialog c1) (ui_dialog c2).

(** [created_before_use ds cs l]: read from left to right, every call of
    [l] on a dialog or a container names an object created by an earlier
    call of [l] or listed in [ds], [cs]; a container is created with a
    known dialog in its closures. *)
Fixpoint created_before_use (ds : list IDialog) (cs : list UiAiAssistant)
    (l : list HostCall) : bool :=
  match l with
  | [] => true
  | call :: l =>
      match call with
      | Dlg _ d => created_before_use (d :: ds) cs l
      | NewUiAiAssistant c =>
          existsb (dialog_eqb (ui_dialog c)) ds && created_before_use ds (c :: cs) l
      | DialogOpen d c _ =>
          existsb (dialog_eqb d) ds && existsb (ui_eqb c) cs && created_before_use ds cs l
      | DialogClose d | DialogDestruct d =>
          existsb (dialog_eqb d) ds && created_before_use ds cs l
      | SetPrompt c _ | UiDestruct c =>
          existsb (ui_eqb c) cs && created_before_use ds cs l
      | _ => created_before_use ds cs l
      end
  end.

(** The container's closures hold the cached dialog. *)
Definition coherent (this : aiAssistant) : Prop :=
  forall c, cached___container this = Some c ->
            cached___dialog this = Some (ui_dialog c).

(** [this'] is [this] with, possibly, more objects cached: the buttons and
    whatever was cached are the same. *)
Definition keeps (this this' : aiAssistant) : Prop :=
  buttons this' = buttons this /\
  (forall d, cached___dialog this = Some d -> cached___dialog this' = Some d) /\
  (forall c, cached___container this = Some c -> cached___container this' = Some c).

End AiAssistant.

Module Component.

(** ** Classes and prototypes

    [component] only looks at three things of a class: its prototype
    object, what the lookup of the property [className] finds along the
    prototype chain, and its constructor.  A class is a chain of class
    declarations; the prototype object of a class is identified with the
    class. *)

(** What a class declares under the name [className]. *)
Inductive JsProperty : Type :=
| PFunction (returns : string)      (* className() { return '...'; } *)
| PNotFunction.                     (* a property that is not a function *)

Record ClassBody : Type := mkClass {
  class_name : string;
  className : option JsProperty
}.

Inductive JsClass : Type :=
| Class (body : ClassBody)                                   (* class C { } *)
| ClassExtends (body : ClassBody) (super : JsClass)          (* class C extends super { } *)
| newConstructorFunction (constructorFunction : JsClass).    (* the class declared by component() *)

(** [component(constructorFunction)] returns the class it declares. *)
Definition component (constructorFunction : JsClass) : JsClass :=
  newConstructorFunction constructorFunction.

(** [C.prototype.constructor]; [component] points the wrapper's back at
    the class it wraps. *)
Definition prototype_constructor (c : JsClass) : JsClass :=
  match c with
  | newConstructorFunction constructorFunction => constructorFunction
  | _ => c
  end.

(** An instance: its prototype is that of the class named in [new]; the
    status is the component's [componentStatus]. *)
Record Instance : Type := mkInstance {
  proto : JsClass;
  componentStatus : string
}.

Inductive JsObject : Type :=
| This (this : Instance)
| Prototype (c : JsClass).

(** The result of [cn]: [string | number], the number being [NaN]. *)
Inductive JsValue : Type :=
| VString (s : string)
| VNaN.

(** [a === b]: [NaN] is not equal to anything, itself included. *)
Definition strict_equals (a b : JsValue) : bool :=
  match a, b with
  | VString x, VString y => String.eqb x y
  | _, _ => false
  end.

(** Lookup of [className] from a prototype upwards. *)
Fixpoint get_className (c : JsClass) : option JsProperty :=
  match c with
  | Class body => className body
  | ClassExtends body super =>
      match className body with
      | Some p => Some p
      | None => get_className super
      end
  | newConstructorFunction constructorFunction => get_className constructorFunction
  end.

(** [elm.className]: an instance has no own [className], the lookup starts
    at its prototype. *)
Definition elm_className (elm : JsObject) : option JsProperty :=
  match elm with
  | This this => get_className (proto this)
  | Prototype c => get_className c
  end.

(** [isFunction] of [../helpers]. *)
Definition isFunction (p : option JsProperty) : bool :=
  match p with
  | Some (PFunction _) => true
  | _ => false
  end.

(** Safe access to ClassName *)
Definition cn (elm : JsObject) : JsValue :=
  match elm_className elm with
  | Some (PFunction returns) => VString returns
  | _ => VNaN
  end.

Definition property_eqb (p q : JsProperty) : bool :=
  match p, q with
  | PFunction x, PFunction y => String.eqb x y
  | PNotFunction, PNotFunction => true
  | _, _ => false
  end.

Definition body_eqb (a b : ClassBody) : bool :=
  String.eqb (class_name a) (class_name b) &&
  match className a, className b with
  | Some p, Some q => property_eqb p q
  | None, None => true
  | _, _ => false
  end.

(** Identity of prototype objects.  Every comparison the decorator makes is
    between the class named in [new] and a class of its own chain, where
    two classes are the same object exactly when they are the same chain
    (lemma [strict_ancestor_not_same]). *)
Fixpoint same_prototype (a b : JsClass) : bool :=
  match a, b with
  | Class x, Class y => body_eqb x y
  | ClassExtends x s, ClassExtends y t => body_eqb x y && same_prototype s t
  | newConstructorFunction s, newConstructorFunction t => same_prototype s t
  | _, _ => false
  end.

(** Number of classes in the chain. *)
Fixpoint depth (c : JsClass) : nat :=
  match c with
  | Class _ => 1
  | ClassExtends _ super => S (depth super)
  | newConstructorFunction constructorFunction => S (depth constructorFunction)
  end.

(** ** Construction *)

Inductive Event : Type :=
| RunConstructor (class_name : string)             (* the body of a declared class's constructor *)
| SetStatus (caller : JsClass) (status : string).  (* this.setStatus(status), called by [caller] *)

Inductive Completion (A : Type) : Type :=
| Normal (a : A)
| Throw (msg : string).
Arguments Normal {A} a.
Arguments Throw {A} msg.

(** Modelled from the spec: [setStatus] belongs to the component base
    class, which is not among the sources.  The decorator "marks UI
    component instances ready": the call sets [componentStatus]. *)
Definition setStatus (status : string) (this : Instance) : Instance :=
  mkInstance (proto this) status.

Section Build.

(** The build constant [isProd]. *)
Variable isProd : bool.

(** [run c this] runs the constructor of [c] on [this] (allocated for the
    class named in [new]) and returns the instance and what happened. *)
Fixpoint run (c : JsClass) (this : Instance) : Completion (Instance * list Event) :=
  match c with
  | Class body => Normal (this, [RunConstructor (class_name body)])
  | ClassExtends body super =>
      match run super this with                             (* super(...args) *)
      | Normal (this, evs) => Normal (this, evs ++ [RunConstructor (class_name body)])
      | Throw msg => Throw msg
      end
  | newConstructorFunction constructorFunction =>
      match run constructorFunction this with               (* super(...args) *)
      | Normal (this, evs) =>
          let isSamePrototype :=
            same_prototype (proto this) (newConstructorFunction constructorFunction) in
          let isSameClassName :=
            strict_equals (cn (This this))
                          (cn (Prototype (newConstructorFunction constructorFunction))) in
          if negb isProd && isSamePrototype && negb isSameClassName then
            Throw "Need use decorator only for components"
          else if isSamePrototype || isSameClassName then
            Normal (setStatus "ready" this,
                    evs ++ [SetStatus (newConstructorFunction constructorFunction) "ready"])
          else Normal (this, evs)
      | Throw msg => Throw msg
      end
  end.

(** [new c(...)], for an instance whose status starts as [status0]. *)
Definition new (status0 : string) (c : JsClass) : Completion (Instance * list Event) :=
  run c (mkInstance c status0).

End Build.

(** The bodies of the declared constructors of a chain, base first. *)
Fixpoint constructors (c : JsClass) : list Event :=
  match c with
  | Class body => [RunConstructor (class_name body)]
  | ClassExtends body super => constructors super ++ [RunConstructor (class_name body)]
  | newConstructorFunction constructorFunction => constructors constructorFunction
  end.

(** The decorated classes of a chain. *)
Fixpoint wrappers (c : JsClass) : list JsClass :=
  match c with
  | Class _ => []
  | ClassExtends _ super => wrappers super
  | newConstructorFunction constructorFunction =>
      newConstructorFunction constructorFunction :: wrappers constructorFunction
  end.

Definition is_SetStatus (e : Event) : bool :=
  match e with
  | SetStatus _ _ => true
  | RunConstructor _ => false
  end.

(** ** Statements about a construction *)

(** [new] on the decorated class of [C] lets the constructor of [C] finish
    and then calls [setStatus('ready')]; the instance it returns is
    ready. *)
Definition ready_after_construction (isProd : bool) (status0 : string) (C : JsClass) : Prop :=
  exists this evs,
    run isProd C (mkInstance (component C) status0) = Normal (this, evs) /\
    new isProd status0 (component C) =
      Normal (mkInstance (component C) "ready",
              evs ++ [SetStatus (component C) "ready"]).

(** [new K] runs every declared constructor of the chain and then calls
    [setStatus('ready')] once, from [K] itself, and at no other moment. *)
Definition ready_once_at_the_end (isProd : bool) (status0 : string) (K : JsClass) : Prop :=
  new isProd status0 K =
    Normal (mkInstance K "ready", constructors K ++ [SetStatus K "ready"]).

(** [@component class body extends B' { }] for [B' = component(B)]: a
    decorated class that extends a decorated class. *)
Definition decorated_derived (body : ClassBody) (B : JsClass) : JsClass :=
  component (ClassExtends body (component B)).

(** No decorated class of the chain of [c] sees at its prototype the
    className that [K]'s instances report. *)
Definition className_differs (K c : JsClass) : bool :=
  forallb (fun W => negb (strict_equals (cn (Prototype K)) (cn (Prototype W))))
          (wrappers c).

(** ** Sample classes *)

(** A decorated class with no [className] anywhere. *)
Definition UIData : JsClass := Class (mkClass "UIData" None).

(** The classes of the decorator's own documentation, with [className]
    declared by the base only ... *)
Definition UIHeight : JsClass :=
  component (Class (mkClass "UIHeight" (Some (PFunction "UIHeight")))).
Definition UIWidth_inheriting : JsClass :=
  component (ClassExtends (mkClass "UIWidth" None) UIHeight).

(** ... by both ... *)
Definition UIWidth : JsClass :=
  component (ClassExtends (mkClass "UIWidth" (Some (PFunction "UIWidth"))) UIHeight).

(** ... and by none. *)
Definition UIHeight_anonymous : JsClass :=
  component (Class (mkClass "UIHeight" None)).
Definition UIWidth_anonymous : JsClass :=
  component (ClassExtends (mkClass "UIWidth" None) UIHeight_anonymous).

(** ** Further readings of a construction *)

Definition is_decorated (c : JsClass) : bool :=
  match c with
  | newConstructorFunction _ => true
  | _ => false
  end.

(** [new c] throws exactly in this case. *)
Definition guard_fires (isProd : bool) (c : JsClass) : bool :=
  is_decorated c && negb isProd && negb (isFunction (elm_className (Prototype c))).

End Component.

(** * Properties of the AI-assistant plugin *)

Module AiAssistantProofs.
Import AiAssistant.

Ltac run_plugin :=
  unfold watch, onInvokeAiAssistant, onGenerateAiAssistantForm, beforeDestruct,
    onInsert, onInsertAfter, __container, __dialog, cache, cached, opt_iter,
    async_promise, promise_then, promise_catch, aiAssistantCallback,
    new_UiAiAssistant, jodit_dlg, s_focus, s_html, s_current, s_setCursorAfter,
    s_insertHTML, e_fire, message_error, ask, tell, bind, ret,
    value_of, this_of, calls_of; simpl.

Lemma onInvokeAiAssistant_calls (jodit : IJodit) (prompt : string)
    (this : aiAssistant) (past : list HostCall) :
  onInvokeAiAssistant jodit prompt this past =
    (tt, this,
     invocation jodit past prompt ++
     match callback_outcome jodit past prompt with
     | Fulfilled htmlFragment =>
         EFire "ai-assistant-response" htmlFragment ::
         match response_listener jodit past prompt htmlFragment with
         | None => []
         | Some error => reported jodit error
         end
     | Rejected error => reported jodit error
     | Pending => []
     end).
Proof.
  unfold callback_outcome, response_listener, reported, invocation, selectedText.
  run_plugin.
  destruct (host_aiAssistantCallback jodit _ prompt _) as [html|error|]; simpl;
    try reflexivity.
  - destruct (host_e_fire jodit _ "ai-assistant-response" html) as [error|]; simpl;
      [ | reflexivity].
    destruct (isAbortError jodit error); reflexivity.
  - destruct (isAbortError jodit error); reflexivity.
Qed.

(** Case analysis on how an invocation went on. *)
Ltac by_outcome :=
  repeat match goal with
  | |- context [match callback_outcome ?j ?p ?q with _ => _ end] =>
      destruct (callback_outcome j p q)
  | |- context [match response_listener ?j ?p ?q ?h with _ => _ end] =>
      destruct (response_listener j p q h)
  | |- context [reported ?j ?e] =>
      unfold reported; destruct (isAbortError j e)
  end.

Example aborted_invocation_is_silent :
  calls_of (watch host_aborting ":invokeAiAssistant" "p" sample_plugin []) =
    [SFocus; SHtml "<b>sel</b>"; AiAssistantCallback "p" "<b>sel</b>"].
Proof. reflexivity. Qed.

Example pending_invocation_is_silent :
  calls_of (watch (sample_host Pending) ":invokeAiAssistant" "p" sample_plugin []) =
    [SFocus; SHtml "<b>sel</b>"; AiAssistantCallback "p" "<b>sel</b>"].
Proof. reflexivity. Qed.

Example form_twice_then_insert :
  calls_of (lifetime host_resolving
              [Deliver ":generateAiAssistantForm.ai-assistant" "hello";
               Deliver ":generateAiAssistantForm.ai-assistant" "again";
               CallOnInsert "<p>hi</p>"] []) =
    [ExtendLang;
     Dlg dialog_options (mkDialog 1);
     NewUiAiAssistant (mkUi 2 (mkDialog 1));
     DialogOpen (mkDialog 1) (mkUi 2 (mkDialog 1)) "AI Assistant";
     SetPrompt (mkUi 2 (mkDialog 1)) "hello";
     DialogOpen (mkDialog 1) (mkUi 2 (mkDialog 1)) "AI Assistant";
     SetPrompt (mkUi 2 (mkDialog 1)) "again";
     SFocus; SInsertHTML "<p>hi</p>"; DialogClose (mkDialog 1)].
Proof. reflexivity. Qed.

(** C1: when the callback fails, the rejection reaches the one catch
    handler: an abort error is dropped, with no message and no event; any
    other error has its message shown through [jodit.message.error] and
    fired as ['ai-assistant-error'] with that same message. *)
Theorem C1_callback_failure_reaches_catch (jodit : IJodit) (prompt : string)
    (this : aiAssistant) (past : list HostCall) (error : JsError) :
  callback_outcome jodit past prompt = Rejected error ->
  let r := watch jodit ":invokeAiAssistant" prompt this past in
  calls_of r =
    invocation jodit past prompt ++
    (if isAbortError jodit error then []
     else [MessageError (message error);
           EFire "ai-assistant-error" (message error)]) /\
  filter is_notification (calls_of r) =
    (if isAbortError jodit error then []
     else [MessageError (message error);
           EFire "ai-assistant-error" (message error)]).
Proof.
  intros H r. subst r. unfold watch. simpl.
  rewrite onInvokeAiAssistant_calls, H. unfold calls_of, invocation, reported. simpl.
  destruct (isAbortError jodit error); split; reflexivity.
Qed.

Lemma C1_witness :
  callback_outcome host_rejecting [] "p" = Rejected (mkError "Error" "boom") /\
  calls_of (watch host_rejecting ":invokeAiAssistant" "p" sample_plugin []) =
    [SFocus; SHtml "<b>sel</b>"; AiAssistantCallback "p" "<b>sel</b>";
     MessageError "boom"; EFire "ai-assistant-error" "boom"].
Proof.
  split; [reflexivity | ].
  apply (C1_callback_failure_reaches_catch host_rejecting "p" sample_plugin []
           (mkError "Error" "boom")).
  reflexivity.
Defined.

(** C2, at a concrete input: the callback resolves with [<p>hi</p>] and a
    listener of the response event throws: the exception leaves the
    then-handler, reaches the catch handler chained after it, and an error
    message and an error event follow the response event. *)
Lemma C2_counterexample :
  callback_outcome host_listener_throwing [] "p" = Fulfilled "<p>hi</p>" /\
  calls_of (watch host_listener_throwing ":invokeAiAssistant" "p" sample_plugin []) =
    [SFocus; SHtml "<b>sel</b>"; AiAssistantCallback "p" "<b>sel</b>";
     EFire "ai-assistant-response" "<p>hi</p>";
     MessageError "listener failed"; EFire "ai-assistant-error" "listener failed"] /\
  filter (is_fire "ai-assistant-error")
    (calls_of (watch host_listener_throwing ":invokeAiAssistant" "p" sample_plugin [])) <> [] /\
  filter is_message
    (calls_of (watch host_listener_throwing ":invokeAiAssistant" "p" sample_plugin [])) <> [].
Proof.
  repeat split; discriminate.
Qed.

(** C2, as the code has it: when the callback resolves with an HTML
    fragment, the invocation fires ['ai-assistant-response'] with that
    fragment exactly once.  When that call returns normally, nothing else
    is notified: no error event and no error message.  When a listener of
    the event throws, the error reaches the catch handler chained after
    the then-handler: an abort error is dropped, any other has its message
    shown and fired as ['ai-assistant-error']. *)
Theorem C2_success_fires_response_once (jodit : IJodit) (prompt : string)
    (this : aiAssistant) (past : list HostCall) (htmlFragment : string) :
  callback_outcome jodit past prompt = Fulfilled htmlFragment ->
  filter (is_fire "ai-assistant-response")
    (calls_of (watch jodit ":invokeAiAssistant" prompt this past)) =
    [EFire "ai-assistant-response" htmlFragment] /\
  match response_listener jodit past prompt htmlFragment with
  | None =>
      calls_of (watch jodit ":invokeAiAssistant" prompt this past) =
        invocation jodit past prompt ++ [EFire "ai-assistant-response" htmlFragment] /\
      filter is_notification
        (calls_of (watch jodit ":invokeAiAssistant" prompt this past)) =
        [EFire "ai-assistant-response" htmlFragment] /\
      filter (is_fire "ai-assistant-error")
        (calls_of (watch jodit ":invokeAiAssistant" prompt this past)) = [] /\
      filter is_message
        (calls_of (watch jodit ":invokeAiAssistant" prompt this past)) = []
  | Some error =>
      calls_of (watch jodit ":invokeAiAssistant" prompt this past) =
        invocation jodit past prompt ++
        [EFire "ai-assistant-response" htmlFragment] ++
        (if isAbortError jodit error then []
         else [MessageError (message error);
               EFire "ai-assistant-error" (message error)])
  end.
Proof.
  intro H. unfold watch. simpl.
  rewrite onInvokeAiAssistant_calls, H. unfold calls_of, invocation. simpl.
  destruct (response_listener jodit past prompt htmlFragment) as [error|].
  - unfold reported. destruct (isAbortError jodit error); split; reflexivity.
  - repeat split; reflexivity.
Qed.

Lemma C2_witness :
  callback_outcome host_resolving [] "p" = Fulfilled "<p>hi</p>" /\
  filter (is_fire "ai-assistant-response")
    (calls_of (watch host_resolving ":invokeAiAssistant" "p" sample_plugin [])) =
    [EFire "ai-assistant-response" "<p>hi</p>"].
Proof.
  split; [reflexivity | ].
  apply (C2_success_fires_response_once host_resolving "p" sample_plugin []
           "<p>hi</p>").
  reflexivity.
Defined.

(** C3: an [':invokeAiAssistant'] event with prompt [p] makes the plugin
    call the callback exactly once, with [p] and with the HTML that
    [jodit.s.html] gives after [jodit.s.focus()]; this holds however the
    callback ends, so a failure is not followed by a second call. *)
Theorem C3_callback_called_once (jodit : IJodit) (p : string)
    (this : aiAssistant) (past : list HostCall) :
  let r := watch jodit ":invokeAiAssistant" p this past in
  (exists after,
     calls_of r =
       [SFocus; SHtml (selectedText jodit past);
        AiAssistantCallback p (selectedText jodit past)] ++ after /\
     filter is_callback after = []) /\
  filter is_callback (calls_of r) = [AiAssistantCallback p (selectedText jodit past)].
Proof.
  intro r. subst r. unfold watch. simpl.
  rewrite onInvokeAiAssistant_calls. unfold calls_of, invocation. simpl.
  destruct (callback_outcome jodit past p) as [html|error|];
    [ destruct (response_listener jodit past p html) as [error|];
      [ unfold reported; destruct (isAbortError jodit error) | ]
    | unfold reported; destruct (isAbortError jodit error) | ];
    (split; [eexists; split; [reflexivity | reflexivity] | reflexivity]).
Qed.

(** C4, at a concrete input: the callback resolves with [<p>hi</p>], and the
    invocation ends with the response event; nothing is inserted into the
    document and no dialog is closed. *)
Lemma C4_counterexample :
  callback_outcome host_resolving [] "p" = Fulfilled "<p>hi</p>" /\
  calls_of (watch host_resolving ":invokeAiAssistant" "p" sample_plugin []) =
    [SFocus; SHtml "<b>sel</b>"; AiAssistantCallback "p" "<b>sel</b>";
     EFire "ai-assistant-response" "<p>hi</p>"] /\
  ~ In (SInsertHTML "<p>hi</p>")
       (calls_of (watch host_resolving ":invokeAiAssistant" "p" sample_plugin [])) /\
  filter is_close
    (calls_of (watch host_resolving ":invokeAiAssistant" "p" sample_plugin [])) = [].
Proof.
  simpl. repeat split.
  intros [H|[H|[H|[H|[]]]]]; discriminate H.
Qed.

(** *** The cached getters *)

Lemma dialog_cached (jodit : IJodit) (this : aiAssistant) (past : list HostCall)
    (d : IDialog) :
  cached___dialog this = Some d ->
  __dialog jodit this past = (d, this, []).
Proof. intro H. unfold __dialog, cache. rewrite H. reflexivity. Qed.

Lemma container_cached (jodit : IJodit) (this : aiAssistant) (past : list HostCall)
    (c : UiAiAssistant) :
  cached___container this = Some c ->
  __container jodit this past = (c, this, []).
Proof. intro H. unfold __container, cache. rewrite H. reflexivity. Qed.

Lemma dialog_after_read (jodit : IJodit) (this : aiAssistant) (past : list HostCall) :
  cached___dialog (this_of (__dialog jodit this past)) =
    Some (value_of (__dialog jodit this past)).
Proof.
  destruct this as [b [d|] c]; run_plugin; reflexivity.
Qed.

Lemma container_after_read (jodit : IJodit) (this : aiAssistant) (past : list HostCall) :
  cached___container (this_of (__container jodit this past)) =
    Some (value_of (__container jodit this past)).
Proof.
  destruct this as [b [d|] [c|]]; run_plugin; reflexivity.
Qed.

Lemma dialogs_created_app (l1 l2 : list HostCall) :
  dialogs_created (l1 ++ l2) = dialogs_created l1 ++ dialogs_created l2.
Proof. apply flat_map_app. Qed.

Lemma containers_created_app (l1 l2 : list HostCall) :
  containers_created (l1 ++ l2) = containers_created l1 ++ containers_created l2.
Proof. apply flat_map_app. Qed.

(** *** The plugin object and its calls stay in agreement *)

Lemma agrees_quiet (this : aiAssistant) (l0 l : list HostCall) :
  agrees this l0 ->
  forallb (fun c => negb (is_construction c)) l = true ->
  agrees this (l0 ++ l).
Proof.
  intros (Hd & Hc & Hcd) Hq. unfold agrees.
  rewrite dialogs_created_app, containers_created_app.
  assert (dialogs_created l = [] /\ containers_created l = []) as [E1 E2].
  { clear -Hq. induction l as [|c l IH]; simpl in *; [split; reflexivity|].
    apply andb_prop in Hq as [Hc Hl]. destruct (IH Hl) as [E1 E2].
    unfold dialogs_created, containers_created in *. simpl.
    rewrite E1, E2. destruct c; simpl in *; try discriminate; split; reflexivity. }
  rewrite E1, E2, !app_nil_r. auto.
Qed.

Lemma agrees_read_dialog (jodit : IJodit) (this : aiAssistant)
    (past l0 : list HostCall) :
  agrees this l0 ->
  agrees (this_of (__dialog jodit this past))
         (l0 ++ calls_of (__dialog jodit this past)).
Proof.
  intros (Hd & Hc & Hcd). unfold agrees.
  rewrite dialogs_created_app, containers_created_app.
  destruct this as [b [d|] [c|]]; run_plugin; simpl in *;
    rewrite ?app_nil_r, ?Hd, ?Hc; repeat split; auto.
  - intros c' E. specialize (Hcd c' E). discriminate Hcd.
  - intros c' E. discriminate E.
Qed.

Lemma agrees_read_container (jodit : IJodit) (this : aiAssistant)
    (past l0 : list HostCall) :
  agrees this l0 ->
  agrees (this_of (__container jodit this past))
         (l0 ++ calls_of (__container jodit this past)).
Proof.
  intros (Hd & Hc & Hcd). unfold agrees.
  rewrite dialogs_created_app, containers_created_app.
  destruct this as [b [d|] [c|]]; run_plugin; simpl in *;
    rewrite ?app_nil_r, ?Hd, ?Hc; repeat split; auto.
  all: intros c' E;
    first [ discriminate E
          | specialize (Hcd c' E); discriminate Hcd
          | inversion E; reflexivity ].
Qed.

Lemma preserves_ret {A} (a : A) : preserves (ret a).
Proof.
  intros this past l0 H. unfold ret, this_of, calls_of. simpl.
  rewrite app_nil_r. exact H.
Qed.

Lemma preserves_bind {A B} (m : M A) (f : A -> M B) :
  preserves m -> (forall a, preserves (f a)) -> preserves (bind m f).
Proof.
  intros Hm Hf this past l0 H. unfold bind, this_of, calls_of.
  specialize (Hm this past l0 H). unfold this_of, calls_of in Hm.
  destruct (m this past) as [[a this1] l1]. simpl in Hm.
  specialize (Hf a this1 (past ++ l1) (l0 ++ l1) Hm). unfold this_of, calls_of in Hf.
  destruct (f a this1 (past ++ l1)) as [[b this2] l2]. simpl in *.
  rewrite app_assoc. exact Hf.
Qed.

Lemma preserves_tell (c : HostCall) :
  is_construction c = false -> preserves (tell c).
Proof.
  intros Hc this past l0 H. unfold tell, this_of, calls_of. simpl.
  apply agrees_quiet; [exact H | simpl; rewrite Hc; reflexivity].
Qed.

Lemma preserves_ask {A} (answer : list HostCall -> A) (call : A -> HostCall) :
  (forall a, is_construction (call a) = false) -> preserves (ask answer call).
Proof.
  intros Hc this past l0 H. unfold ask, this_of, calls_of. simpl.
  apply agrees_quiet; [exact H | simpl; rewrite Hc; reflexivity].
Qed.

Lemma preserves_cached {A} (slot : aiAssistant -> option A) : preserves (cached slot).
Proof.
  intros this past l0 H. unfold cached, this_of, calls_of. simpl.
  rewrite app_nil_r. exact H.
Qed.

Lemma preserves_opt_iter {A} (o : option A) (f : A -> M unit) :
  (forall a, preserves (f a)) -> preserves (opt_iter o f).
Proof. intro Hf. destruct o; simpl; [apply Hf | apply preserves_ret]. Qed.

Lemma preserves_dialog (jodit : IJodit) : preserves (__dialog jodit).
Proof. intros this past l0 H. apply agrees_read_dialog, H. Qed.

Lemma preserves_container (jodit : IJodit) : preserves (__container jodit).
Proof. intros this past l0 H. apply agrees_read_container, H. Qed.

Lemma preserves_onInvokeAiAssistant (jodit : IJodit) (prompt : string) :
  preserves (onInvokeAiAssistant jodit prompt).
Proof.
  intros this past l0 H. rewrite onInvokeAiAssistant_calls.
  unfold this_of, calls_of, invocation. simpl.
  apply agrees_quiet; [exact H | ].
  by_outcome; reflexivity.
Qed.

Create HintDb plugin.
#[local] Hint Resolve preserves_ret preserves_cached preserves_dialog
  preserves_container preserves_onInvokeAiAssistant : plugin.

Ltac preserved :=
  repeat first
    [ solve [ auto with plugin ]
    | apply preserves_tell; reflexivity
    | apply preserves_ask; intro; reflexivity
    | apply preserves_opt_iter; intro
    | apply preserves_bind; [ | intro ] ].

Lemma preserves_use (jodit : IJodit) (u : Use) : preserves (use jodit u).
Proof.
  destruct u as [ | | event prompt | html | html ]; unfold use.
  - preserved.
  - preserved.
  - unfold watch.
    destruct (String.eqb event ":generateAiAssistantForm.ai-assistant").
    + unfold onGenerateAiAssistantForm. preserved.
    + destruct (String.eqb event ":invokeAiAssistant"); preserved.
  - unfold onInsert, s_focus, s_insertHTML. preserved.
  - unfold onInsertAfter, s_focus, s_current, s_setCursorAfter, s_insertHTML.
    preserved.
Qed.

Lemma preserves_uses (jodit : IJodit) (us : list Use) : preserves (uses jodit us).
Proof.
  induction us as [|u us IH]; simpl.
  - apply preserves_ret.
  - apply preserves_bind; [apply preserves_use | intro; exact IH].
Qed.

Lemma lifetime_agrees (jodit : IJodit) (us : list Use) (past : list HostCall) :
  agrees (this_of (lifetime jodit us past)) (calls_of (lifetime jodit us past)).
Proof.
  unfold lifetime. simpl.
  assert (H0 : agrees (fst constructor) [ExtendLang]).
  { unfold agrees. simpl. repeat split. intros c E. discriminate E. }
  pose proof (preserves_uses jodit us _ (past ++ [ExtendLang]) _ H0) as H.
  unfold this_of, calls_of in *. simpl in *.
  destruct (uses jodit us _ (past ++ [ExtendLang])) as [[u this1] l1].
  exact H.
Qed.

Lemma beforeDestruct_calls (this : aiAssistant) (past : list HostCall) :
  beforeDestruct this past =
    (tt, this,
     map UiDestruct (option_list (cached___container this)) ++
     map DialogDestruct (option_list (cached___dialog this))).
Proof.
  destruct this as [b [d|] [c|]]; reflexivity.
Qed.

(** C4, as the code has it: a resolved callback makes the plugin fire
    ['ai-assistant-response'] with the fragment and, when a listener of
    that event throws, handle the error as the catch handler does; nothing
    is inserted and no dialog is closed by the invocation, whatever the
    listeners do.  A fragment is inserted when the
    container calls one of the closures the plugin gave it: [onInsert(html)]
    focuses the editor, inserts [html] with [jodit.s.insertHTML] and then
    closes the dialog, [onInsertAfter(html)] first moves the cursor after
    the current node; the dialog closed is the plugin's cached dialog. *)
Theorem C4_fragment_inserted_by_container_closures (jodit : IJodit)
    (prompt : string) (this : aiAssistant) (past : list HostCall)
    (htmlFragment : string) :
  callback_outcome jodit past prompt = Fulfilled htmlFragment ->
  (calls_of (watch jodit ":invokeAiAssistant" prompt this past) =
     invocation jodit past prompt ++
     EFire "ai-assistant-response" htmlFragment ::
     match response_listener jodit past prompt htmlFragment with
     | None => []
     | Some error => reported jodit error
     end /\
   filter is_insertHTML
     (calls_of (watch jodit ":invokeAiAssistant" prompt this past)) = [] /\
   filter is_close
     (calls_of (watch jodit ":invokeAiAssistant" prompt this past)) = []) /\
  (forall c html this' past',
     onInsert c html this' past' =
       (tt, this', [SFocus; SInsertHTML html; DialogClose (ui_dialog c)])) /\
  (forall c html this' past',
     onInsertAfter jodit c html this' past' =
       (tt, this',
        [SFocus; SCurrent (host_s_current jodit (past' ++ [SFocus]));
         SSetCursorAfter (host_s_current jodit (past' ++ [SFocus]));
         SInsertHTML html; DialogClose (ui_dialog c)])) /\
  (forall us past0 c,
     cached___container (this_of (lifetime jodit us past0)) = Some c ->
     cached___dialog (this_of (lifetime jodit us past0)) = Some (ui_dialog c)).
Proof.
  intro H. repeat split.
  - unfold watch. simpl. rewrite onInvokeAiAssistant_calls, H. reflexivity.
  - unfold watch. simpl. rewrite onInvokeAiAssistant_calls, H.
    unfold calls_of, invocation. simpl. by_outcome; reflexivity.
  - unfold watch. simpl. rewrite onInvokeAiAssistant_calls, H.
    unfold calls_of, invocation. simpl. by_outcome; reflexivity.
  - intros us past0 c.
    destruct (lifetime_agrees jodit us past0) as (_ & _ & Hcd).
    apply Hcd.
Qed.

Lemma C4_witness :
  callback_outcome host_resolving [] "p" = Fulfilled "<p>hi</p>" /\
  calls_of (watch host_resolving ":invokeAiAssistant" "p" sample_plugin []) =
    [SFocus; SHtml "<b>sel</b>"; AiAssistantCallback "p" "<b>sel</b>";
     EFire "ai-assistant-response" "<p>hi</p>"].
Proof.
  split; [reflexivity | ].
  apply (C4_fragment_inserted_by_container_closures host_resolving "p"
           sample_plugin [] "<p>hi</p>").
  reflexivity.
Defined.

(** C7: a [':generateAiAssistantForm.ai-assistant'] event with prompt [p]
    makes the plugin open its dialog on its container with the title
    ['AI Assistant'] and then set the container's prompt to [p]; before
    that it only creates the dialog and the container when they do not
    exist yet. *)
Theorem C7_generate_opens_dialog_then_sets_prompt (jodit : IJodit) (p : string)
    (this : aiAssistant) (past : list HostCall) :
  exists d c made,
    calls_of (watch jodit ":generateAiAssistantForm.ai-assistant" p this past) =
      made ++ [DialogOpen d c "AI Assistant"; SetPrompt c p] /\
    forallb is_construction made = true /\
    cached___dialog
      (this_of (watch jodit ":generateAiAssistantForm.ai-assistant" p this past)) =
      Some d /\
    cached___container
      (this_of (watch jodit ":generateAiAssistantForm.ai-assistant" p this past)) =
      Some c.
Proof.
  unfold watch. simpl.
  destruct this as [b [d|] [c|]]; run_plugin.
  - exists d, c, []. repeat split.
  - eexists d, _, [_]. repeat split.
  - eexists _, c, [_]. repeat split.
  - eexists _, _, [_; _]. repeat split.
Qed.

(** C10: teardown leaves the plugin object as it was and calls [destruct()]
    on what is cached and on nothing else: it constructs nothing, and a
    plugin whose getters were never read makes no call at all. *)
Theorem C10_teardown_touches_only_cached (this : aiAssistant) (past : list HostCall) :
  this_of (beforeDestruct this past) = this /\
  calls_of (beforeDestruct this past) =
    map UiDestruct (option_list (cached___container this)) ++
    map DialogDestruct (option_list (cached___dialog this)) /\
  filter is_construction (calls_of (beforeDestruct this past)) = [] /\
  filter (fun c => negb (is_destruct c)) (calls_of (beforeDestruct this past)) = [] /\
  beforeDestruct (fst constructor) past = (tt, fst constructor, []).
Proof.
  rewrite beforeDestruct_calls. unfold this_of, calls_of. simpl.
  destruct this as [b [d|] [c|]]; repeat split.
Qed.

(** C6: the dialog and the container are created lazily and once: in any
    life of the plugin at most one dialog and one container are created,
    reading a getter creates the object only when none is cached and
    returns the cached one otherwise, a second read returns the first
    read's object without any call, and teardown calls [destruct()] on
    exactly the container and the dialog that were created. *)
Theorem C6_lazy_once_and_destructed (jodit : IJodit) (us : list Use)
    (past0 : list HostCall) :
  (length (dialogs_created (calls_of (lifetime jodit us past0))) <= 1 /\
   length (containers_created (calls_of (lifetime jodit us past0))) <= 1) /\
  (forall this past,
     match cached___dialog this with
     | Some d => __dialog jodit this past = (d, this, [])
     | None =>
         dialogs_created (calls_of (__dialog jodit this past)) =
           [value_of (__dialog jodit this past)]
     end /\
     __dialog jodit (this_of (__dialog jodit this past))
                    (past ++ calls_of (__dialog jodit this past)) =
       (value_of (__dialog jodit this past),
        this_of (__dialog jodit this past), [])) /\
  (forall this past,
     match cached___container this with
     | Some c => __container jodit this past = (c, this, [])
     | None =>
         containers_created (calls_of (__container jodit this past)) =
           [value_of (__container jodit this past)]
     end /\
     __container jodit (this_of (__container jodit this past))
                       (past ++ calls_of (__container jodit this past)) =
       (value_of (__container jodit this past),
        this_of (__container jodit this past), [])) /\
  (forall past,
     calls_of (beforeDestruct (this_of (lifetime jodit us past0)) past) =
       map UiDestruct (containers_created (calls_of (lifetime jodit us past0))) ++
       map DialogDestruct (dialogs_created (calls_of (lifetime jodit us past0)))).
Proof.
  destruct (lifetime_agrees jodit us past0) as (Hd & Hc & _).
  refine (conj (conj _ _) (conj _ (conj _ _))).
  - rewrite Hd. destruct (cached___dialog _); simpl; lia.
  - rewrite Hc. destruct (cached___container _); simpl; lia.
  - intros this past. split.
    + destruct this as [b [d|] c]; reflexivity.
    + apply dialog_cached, dialog_after_read.
  - intros this past. split.
    + destruct this as [b [d|] [c|]]; reflexivity.
    + apply container_cached, container_after_read.
  - intro past. rewrite beforeDestruct_calls, Hd, Hc. reflexivity.
Qed.

End AiAssistantProofs.

(** * Properties of the [component] decorator *)

Module ComponentProofs.
Import Component.

(** *** Identity of prototypes *)

Lemma property_eqb_refl (p : JsProperty) : property_eqb p p = true.
Proof. destruct p; simpl; [apply String.eqb_refl | reflexivity]. Qed.

Lemma body_eqb_refl (b : ClassBody) : body_eqb b b = true.
Proof.
  unfold body_eqb. rewrite String.eqb_refl. simpl.
  destruct (className b); [apply property_eqb_refl | reflexivity].
Qed.

Lemma same_prototype_refl (c : JsClass) : same_prototype c c = true.
Proof.
  induction c as [b | b s IH | s IH]; simpl;
    rewrite ?body_eqb_refl, ?IH; reflexivity.
Qed.

Lemma same_prototype_depth (a b : JsClass) :
  same_prototype a b = true -> depth a = depth b.
Proof.
  revert b. induction a as [x | x s IH | s IH]; intros [y | y t | t] H;
    simpl in *; try discriminate; try reflexivity.
  - apply andb_prop in H as [_ H]. f_equal. apply IH, H.
  - f_equal. apply IH, H.
Qed.

(** A class is never the same object as one of its strict ancestors. *)
Lemma strict_ancestor_not_same (a b : JsClass) :
  depth b < depth a -> same_prototype a b = false.
Proof.
  intro H. destruct (same_prototype a b) eqn:E; [ | reflexivity ].
  apply same_prototype_depth in E. lia.
Qed.

(** *** [cn] *)

Lemma cn_this (this : Instance) : cn (This this) = cn (Prototype (proto this)).
Proof. reflexivity. Qed.

Lemma cn_wrapper (C : JsClass) : cn (Prototype (component C)) = cn (Prototype C).
Proof. reflexivity. Qed.

Lemma cn_equals_itself (c : JsClass) :
  strict_equals (cn (Prototype c)) (cn (Prototype c)) =
    isFunction (elm_className (Prototype c)).
Proof.
  unfold cn. destruct (elm_className (Prototype c)) as [[s|]|]; simpl;
    [apply String.eqb_refl | reflexivity | reflexivity].
Qed.

Lemma cn_NaN (elm : JsObject) :
  isFunction (elm_className elm) = false -> cn elm = VNaN.
Proof.
  unfold cn. destruct (elm_className elm) as [[s|]|]; simpl;
    [discriminate | reflexivity | reflexivity].
Qed.

(** *** Constructors of strict ancestors *)

Section Build.

Variable isProd : bool.

(** The constructor of a strict ancestor returns normally and keeps the
    prototype: the wrapper's throw needs [isSamePrototype]. *)
Lemma run_ancestor_normal (c : JsClass) (this : Instance) :
  depth c < depth (proto this) ->
  exists this' evs,
    run isProd c this = Normal (this', evs) /\ proto this' = proto this.
Proof.
  induction c as [b | b s IH | s IH]; simpl; intro H.
  - eauto.
  - destruct IH as (this' & evs & E & P); [lia | ]. rewrite E. eauto.
  - destruct IH as (this' & evs & E & P); [lia | ]. rewrite E.
    rewrite strict_ancestor_not_same by (rewrite P; simpl; lia).
    rewrite andb_false_r. simpl.
    destruct (strict_equals _ _); eauto.
Qed.

(** When no decorated ancestor sees the instance's className at its own
    prototype, the ancestors' constructors only run the declared bodies. *)
Lemma run_ancestor_quiet (c : JsClass) (this : Instance) :
  depth c < depth (proto this) ->
  className_differs (proto this) c = true ->
  run isProd c this = Normal (this, constructors c).
Proof.
  unfold className_differs.
  induction c as [b | b s IH | s IH]; simpl; intros H D.
  - reflexivity.
  - rewrite IH by (lia || exact D). reflexivity.
  - apply andb_prop in D as [D1 D2]. rewrite IH by (lia || exact D2).
    rewrite strict_ancestor_not_same by (simpl; lia).
    rewrite andb_false_r. simpl.
    rewrite cn_this. apply negb_true_iff in D1. rewrite D1. reflexivity.
Qed.

(** What the outermost wrapper does once the wrapped constructor is back. *)
Lemma new_component (status0 : string) (C : JsClass) (this : Instance)
    (evs : list Event) :
  run isProd C (mkInstance (component C) status0) = Normal (this, evs) ->
  proto this = component C ->
  new isProd status0 (component C) =
    if negb isProd && negb (isFunction (elm_className (Prototype C))) then
      Throw "Need use decorator only for components"
    else
      Normal (mkInstance (component C) "ready",
              evs ++ [SetStatus (component C) "ready"]).
Proof.
  intros E P. unfold new, component in *. simpl. rewrite E.
  rewrite cn_this, P, same_prototype_refl, cn_equals_itself. simpl.
  rewrite andb_true_r.
  destruct (negb isProd && negb (isFunction (get_className C))); [reflexivity | ].
  unfold setStatus. rewrite P. reflexivity.
Qed.

End Build.

Example production_build_does_not_throw :
  new true "beforeInit" (component UIData) =
    Normal (mkInstance (component UIData) "ready",
            [RunConstructor "UIData"; SetStatus (component UIData) "ready"]).
Proof. reflexivity. Qed.

Example wrapper_points_back_at_class :
  prototype_constructor (component UIData) = UIData.
Proof. reflexivity. Qed.

(** C5, at a concrete input: in a non-production build, [new] on a
    decorated class with no [className] function throws; [setStatus] is not
    called and no ready instance is returned. *)
Lemma C5_counterexample :
  new false "beforeInit" (component UIData) =
    Throw "Need use decorator only for components" /\
  ~ ready_after_construction false "beforeInit" UIData.
Proof.
  split; [reflexivity | ].
  intros (this & evs & _ & H). discriminate H.
Qed.

(** C5, as the code has it: in a production build, or when the lookup of
    [className] on the class finds a function, [new] on the decorated class
    lets the original constructor finish, then calls [setStatus('ready')]
    on the new instance, and the instance returned has [componentStatus]
    ['ready'].  (In a non-production build without such a function the
    constructor throws instead.) *)
Theorem C5_ready_after_direct_construction (isProd : bool) (status0 : string)
    (C : JsClass) :
  isProd = true \/ isFunction (elm_className (Prototype C)) = true ->
  ready_after_construction isProd status0 C /\
  (forall this evs,
     new isProd status0 (component C) = Normal (this, evs) ->
     componentStatus this = "ready").
Proof.
  intro H.
  destruct (run_ancestor_normal isProd C (mkInstance (component C) status0))
    as (this1 & evs1 & E & P); [simpl; lia | ].
  simpl in P.
  pose proof (new_component isProd status0 C this1 evs1 E P) as N.
  assert (G : negb isProd && negb (isFunction (elm_className (Prototype C))) = false).
  { destruct H as [-> | ->]; [reflexivity | apply andb_false_r]. }
  rewrite G in N. split.
  - exists this1, evs1. split; [exact E | exact N].
  - intros this evs E'. rewrite N in E'. inversion E'. reflexivity.
Qed.

Lemma C5_witness :
  (false = true \/
   isFunction (elm_className
                 (Prototype (Class (mkClass "UIHeight" (Some (PFunction "UIHeight"))))))
     = true) /\
  ready_after_construction false "beforeInit"
    (Class (mkClass "UIHeight" (Some (PFunction "UIHeight")))).
Proof.
  split; [right; reflexivity | ].
  apply (C5_ready_after_direct_construction false "beforeInit"
           (Class (mkClass "UIHeight" (Some (PFunction "UIHeight"))))).
  right. reflexivity.
Defined.

(** C9: in a non-production build, [new] on a decorated class for which the
    lookup of [className] finds no function throws ['Need use decorator
    only for components']: [cn] gives [NaN] for the instance and for the
    prototype, [NaN === NaN] is false, so [isSameClassName] is false while
    [isSamePrototype] is true. *)
Theorem C9_no_className_throws_in_dev_build (status0 : string) (C : JsClass) :
  isFunction (elm_className (Prototype C)) = false ->
  cn (This (mkInstance (component C) status0)) = VNaN /\
  cn (Prototype (component C)) = VNaN /\
  strict_equals (cn (This (mkInstance (component C) status0)))
                (cn (Prototype (component C))) = false /\
  same_prototype (proto (mkInstance (component C) status0)) (component C) = true /\
  new false status0 (component C) = Throw "Need use decorator only for components".
Proof.
  intro H.
  assert (N : cn (Prototype (component C)) = VNaN) by (apply cn_NaN; exact H).
  refine (conj N (conj N (conj _ (conj _ _)))).
  - rewrite cn_this. simpl proto. rewrite N. reflexivity.
  - apply same_prototype_refl.
  - destruct (run_ancestor_normal false C (mkInstance (component C) status0))
      as (this1 & evs1 & E & P); [simpl; lia | ].
    simpl in P.
    rewrite (new_component false status0 C this1 evs1 E P), H. reflexivity.
Qed.

Lemma C9_witness :
  isFunction (elm_className (Prototype UIData)) = false /\
  new false "beforeInit" (component UIData) =
    Throw "Need use decorator only for components".
Proof.
  split; [reflexivity | ].
  apply (C9_no_className_throws_in_dev_build "beforeInit" UIData).
  reflexivity.
Defined.

(** C8, at a concrete input: a decorated class extending a decorated class,
    neither with a [className] function, in a non-production build: the
    construction throws and [setStatus('ready')] is called by no wrapper. *)
Lemma C8_counterexample :
  new false "beforeInit" UIWidth_anonymous =
    Throw "Need use decorator only for components" /\
  ~ ready_once_at_the_end false "beforeInit" UIWidth_anonymous.
Proof.
  split; [reflexivity | ].
  intro H. discriminate H.
Qed.

(** The inner wrapper compares classNames as well: when the derived class
    inherits [className] from the decorated class it extends, the inner
    wrapper calls [setStatus('ready')] during the super call, before the
    derived constructor's body, and the outer wrapper calls it again. *)
Lemma inherited_className_sets_ready_twice (isProd : bool) :
  new isProd "beforeInit" UIWidth_inheriting =
    Normal (mkInstance UIWidth_inheriting "ready",
            [RunConstructor "UIHeight"; SetStatus UIHeight "ready";
             RunConstructor "UIWidth"; SetStatus UIWidth_inheriting "ready"]).
Proof. destruct isProd; reflexivity. Qed.

(** C8, as the code has it: when a decorated class extends a decorated
    class and no decorated ancestor sees at its prototype the className the
    instance reports, then, in a production build or when that className
    is a function, constructing the derived class runs every constructor of
    the chain and then calls [setStatus('ready')] exactly once, from the
    outermost wrapper. *)
Theorem C8_ready_once_from_outermost_wrapper (isProd : bool) (status0 : string)
    (body : ClassBody) (B : JsClass) :
  isProd = true \/
  isFunction (elm_className (Prototype (decorated_derived body B))) = true ->
  className_differs (decorated_derived body B) (component B) = true ->
  ready_once_at_the_end isProd status0 (decorated_derived body B) /\
  filter is_SetStatus (constructors (decorated_derived body B)) = [] /\
  same_prototype (decorated_derived body B) (component B) = false.
Proof.
  set (K := decorated_derived body B). intros H D.
  assert (L : depth (ClassExtends body (component B)) <
              depth (proto (mkInstance K status0))) by (simpl; lia).
  pose proof (run_ancestor_quiet isProd (ClassExtends body (component B))
                (mkInstance K status0) L D) as E.
  pose proof (new_component isProd status0 _ _ _ E eq_refl) as N.
  assert (G : negb isProd && negb (isFunction (elm_className (Prototype K))) = false).
  { destruct H as [-> | ->]; [reflexivity | apply andb_false_r]. }
  change (elm_className (Prototype K))
    with (elm_className (Prototype (ClassExtends body (component B)))) in G.
  rewrite G in N.
  refine (conj N (conj _ _)).
  - clear. subst K. simpl.
    rewrite filter_app. simpl. rewrite app_nil_r.
    induction B as [b | b s IH | s IH]; simpl; [reflexivity | | exact IH].
    rewrite filter_app, IH. reflexivity.
  - apply strict_ancestor_not_same. simpl. lia.
Qed.

Lemma C8_witness :
  (false = true \/ isFunction (elm_className (Prototype UIWidth)) = true) /\
  className_differs UIWidth UIHeight = true /\
  new false "beforeInit" UIWidth =
    Normal (mkInstance UIWidth "ready",
            [RunConstructor "UIHeight"; RunConstructor "UIWidth";
             SetStatus UIWidth "ready"]).
Proof.
  split; [right; reflexivity | ].
  split; [reflexivity | ].
  apply (C8_ready_once_from_outermost_wrapper false "beforeInit"
           (mkClass "UIWidth" (Some (PFunction "UIWidth")))
           (Class (mkClass "UIHeight" (Some (PFunction "UIHeight"))))).
  - right. reflexivity.
  - reflexivity.
Defined.

End ComponentProofs.

(** * Further properties of the [component] decorator *)

Module ComponentMore.
Import Component ComponentProofs.

(** A constructor that returns has run the declared bodies of its chain,
    base first, and kept the prototype. *)
Lemma run_returns (isProd : bool) (c : JsClass) :
  forall this this' evs,
    run isProd c this = Normal (this', evs) ->
    proto this' = proto this /\
    filter (fun e => negb (is_SetStatus e)) evs = constructors c.
Proof.
  induction c as [b | b s IH | s IH]; simpl; intros this this' evs H.
  - inversion H; subst. split; reflexivity.
  - destruct (run isProd s this) as [[t e] | msg] eqn:E; [ | discriminate H].
    inversion H; subst. destruct (IH _ _ _ E) as (P & F).
    rewrite filter_app, F. split; [exact P | reflexivity].
  - destruct (run isProd s this) as [[t e] | msg] eqn:E; [ | discriminate H].
    destruct (IH _ _ _ E) as (P & F).
    destruct (negb isProd && _ && _); [discriminate H | ].
    destruct (_ || _); inversion H; subst.
    + rewrite filter_app, F. simpl. rewrite app_nil_r. split; [exact P | reflexivity].
    + split; [exact P | exact F].
Qed.

Lemma run_extends (isProd : bool) (body : ClassBody) (s : JsClass) (this : Instance) :
  run isProd (ClassExtends body s) this =
    match run isProd s this with
    | Normal (this', evs) => Normal (this', evs ++ [RunConstructor (class_name body)])
    | Throw msg => Throw msg
    end.
Proof. reflexivity. Qed.

(** A decorated ancestor that sees the instance's className at its own
    prototype marks the instance ready as soon as its own super call is
    back. *)
Lemma run_wrapper_matching (isProd : bool) (B : JsClass) (this : Instance) :
  depth (component B) < depth (proto this) ->
  strict_equals (cn (This this)) (cn (Prototype (component B))) = true ->
  exists this1 evs,
    run isProd B this = Normal (this1, evs) /\
    proto this1 = proto this /\
    run isProd (component B) this =
      Normal (setStatus "ready" this1, evs ++ [SetStatus (component B) "ready"]).
Proof.
  intros L H.
  destruct (run_ancestor_normal isProd B this) as (this1 & evs & E & P);
    [simpl in L; lia | ].
  exists this1, evs. repeat split; [exact E | exact P | ].
  unfold component in *. simpl. rewrite E.
  rewrite strict_ancestor_not_same by (rewrite P; exact L).
  rewrite andb_false_r. simpl.
  rewrite cn_this, P, <- cn_this. simpl in H. rewrite H. reflexivity.
Qed.

(** X1: [new] throws exactly when the class named in [new] is a decorated
    class, the build is not a production build and the lookup of
    [className] finds no function; the error is the decorator's.  In every
    other case [new] returns an instance whose prototype is the class's. *)
Theorem X1_new_throws_exactly_when_guard_fires (isProd : bool) (status0 : string)
    (K : JsClass) :
  if guard_fires isProd K then
    new isProd status0 K = Throw "Need use decorator only for components"
  else
    exists this evs, new isProd status0 K = Normal (this, evs) /\ proto this = K.
Proof.
  unfold guard_fires. destruct K as [b | b s | C]; simpl.
  - unfold new. simpl. eauto.
  - unfold new. simpl.
    destruct (run_ancestor_normal isProd s (mkInstance (ClassExtends b s) status0))
      as (this1 & evs & E & P); [simpl; lia | ].
    rewrite E. eauto.
  - destruct (run_ancestor_normal isProd C (mkInstance (component C) status0))
      as (this1 & evs & E & P); [simpl; lia | ].
    simpl in P.
    pose proof (new_component isProd status0 C this1 evs E P) as N.
    unfold component in *. simpl in N.
    destruct (negb isProd && negb (isFunction (get_className C))); [exact N | ].
    eauto.
Qed.

(** X2: when [new] returns, the body of every declared constructor of the
    chain has run exactly once, base class first: the wrappers only add
    [setStatus] calls. *)
Theorem X2_constructors_run_once_base_first (isProd : bool) (status0 : string)
    (c : JsClass) (this : Instance) (evs : list Event) :
  new isProd status0 c = Normal (this, evs) ->
  filter (fun e => negb (is_SetStatus e)) evs = constructors c.
Proof. intro H. apply (run_returns isProd c _ _ _ H). Qed.

Lemma X2_witness :
  new false "beforeInit" UIWidth_inheriting =
    Normal (mkInstance UIWidth_inheriting "ready",
            [RunConstructor "UIHeight"; SetStatus UIHeight "ready";
             RunConstructor "UIWidth"; SetStatus UIWidth_inheriting "ready"]) /\
  filter (fun e => negb (is_SetStatus e))
    [RunConstructor "UIHeight"; SetStatus UIHeight "ready";
     RunConstructor "UIWidth"; SetStatus UIWidth_inheriting "ready"] =
    constructors UIWidth_inheriting.
Proof.
  split; [reflexivity | ].
  apply (X2_constructors_run_once_base_first false "beforeInit" UIWidth_inheriting
           (mkInstance UIWidth_inheriting "ready")).
  reflexivity.
Defined.

(** X4: for a decorated class with any chain of ancestors, decorated or
    not: when no decorated ancestor sees at its own prototype the className
    the instance reports, then, in a production build or when that
    className is a function, [new] runs the declared constructors and calls
    [setStatus('ready')] once, last, from the class named in [new]. *)
Theorem X4_ready_once_in_any_chain (isProd : bool) (status0 : string) (C : JsClass) :
  isProd = true \/ isFunction (elm_className (Prototype C)) = true ->
  className_differs (component C) C = true ->
  ready_once_at_the_end isProd status0 (component C).
Proof.
  intros H D. unfold ready_once_at_the_end.
  assert (L : depth C < depth (proto (mkInstance (component C) status0)))
    by (simpl; lia).
  pose proof (run_ancestor_quiet isProd C (mkInstance (component C) status0) L D) as E.
  rewrite (new_component isProd status0 C _ _ E eq_refl).
  destruct H as [-> | ->]; [reflexivity | ].
  rewrite andb_false_r. reflexivity.
Qed.

Lemma X4_witness :
  (false = true \/
   isFunction (elm_className
     (Prototype (ClassExtends (mkClass "UIOther" (Some (PFunction "UIOther")))
                   UIWidth))) = true) /\
  className_differs
    (component (ClassExtends (mkClass "UIOther" (Some (PFunction "UIOther"))) UIWidth))
    (ClassExtends (mkClass "UIOther" (Some (PFunction "UIOther"))) UIWidth) = true /\
  ready_once_at_the_end false "beforeInit"
    (component (ClassExtends (mkClass "UIOther" (Some (PFunction "UIOther"))) UIWidth)).
Proof.
  split; [right; reflexivity | ].
  split; [reflexivity | ].
  apply (X4_ready_once_in_any_chain false "beforeInit"
           (ClassExtends (mkClass "UIOther" (Some (PFunction "UIOther"))) UIWidth)).
  - right. reflexivity.
  - reflexivity.
Defined.

(** X5: a class that is not decorated itself, and whose instances report a
    className that no decorated ancestor sees at its own prototype, is not
    marked ready by [new]: the constructors run, [setStatus] is not called
    and the status stays what it was, in either build. *)
Theorem X5_undecorated_subclass_left_unready (isProd : bool) (status0 : string)
    (D : JsClass) :
  is_decorated D = false ->
  className_differs D D = true ->
  new isProd status0 D = Normal (mkInstance D status0, constructors D).
Proof.
  intros U H. destruct D as [b | b s | C]; [reflexivity | | discriminate U].
  unfold new. simpl.
  assert (L : depth s < depth (proto (mkInstance (ClassExtends b s) status0)))
    by (simpl; lia).
  rewrite (run_ancestor_quiet isProd s _ L H). reflexivity.
Qed.

Lemma X5_witness :
  is_decorated (ClassExtends (mkClass "UIOther" (Some (PFunction "UIOther"))) UIHeight)
    = false /\
  className_differs
    (ClassExtends (mkClass "UIOther" (Some (PFunction "UIOther"))) UIHeight)
    (ClassExtends (mkClass "UIOther" (Some (PFunction "UIOther"))) UIHeight) = true /\
  new false "beforeInit"
    (ClassExtends (mkClass "UIOther" (Some (PFunction "UIOther"))) UIHeight) =
    Normal (mkInstance
              (ClassExtends (mkClass "UIOther" (Some (PFunction "UIOther"))) UIHeight)
              "beforeInit",
            [RunConstructor "UIHeight"; RunConstructor "UIOther"]).
Proof.
  split; [reflexivity | ].
  split; [reflexivity | ].
  apply (X5_undecorated_subclass_left_unready false "beforeInit"
           (ClassExtends (mkClass "UIOther" (Some (PFunction "UIOther"))) UIHeight));
    reflexivity.
Defined.

(** X6: a class that is not decorated, declares no [className] of its own
    and extends a decorated class whose [className] is a function is
    marked ready all the same, by the wrapper of the class it extends and
    before its own constructor's body runs; [new] does not throw in either
    build. *)
Theorem X6_undecorated_heir_marked_ready_by_parent (isProd : bool)
    (status0 : string) (body : ClassBody) (B : JsClass) :
  className body = None ->
  isFunction (elm_className (Prototype B)) = true ->
  exists this1 evs,
    run isProd B (mkInstance (ClassExtends body (component B)) status0) =
      Normal (this1, evs) /\
    new isProd status0 (ClassExtends body (component B)) =
      Normal (mkInstance (ClassExtends body (component B)) "ready",
              evs ++ [SetStatus (component B) "ready";
                      RunConstructor (class_name body)]).
Proof.
  intros N F.
  destruct (run_wrapper_matching isProd B
              (mkInstance (ClassExtends body (component B)) status0))
    as (this1 & evs & E & P & R).
  - simpl. lia.
  - unfold cn. simpl. rewrite N. simpl in F.
    destruct (get_className B) as [[r|]|]; try discriminate F.
    simpl. apply String.eqb_refl.
  - exists this1, evs. split; [exact E | ].
    unfold new. rewrite run_extends, R.
    unfold setStatus. rewrite P. simpl. rewrite <- app_assoc. reflexivity.
Qed.

Lemma X6_witness :
  className (mkClass "UIWidth" None) = None /\
  isFunction (elm_className
    (Prototype (Class (mkClass "UIHeight" (Some (PFunction "UIHeight")))))) = true /\
  exists this1 evs,
    run false (Class (mkClass "UIHeight" (Some (PFunction "UIHeight"))))
      (mkInstance (ClassExtends (mkClass "UIWidth" None) UIHeight) "beforeInit") =
      Normal (this1, evs) /\
    new false "beforeInit" (ClassExtends (mkClass "UIWidth" None) UIHeight) =
      Normal (mkInstance (ClassExtends (mkClass "UIWidth" None) UIHeight) "ready",
              evs ++ [SetStatus UIHeight "ready"; RunConstructor "UIWidth"]).
Proof.
  split; [reflexivity | ].
  split; [reflexivity | ].
  apply (X6_undecorated_heir_marked_ready_by_parent false "beforeInit"
           (mkClass "UIWidth" None)
           (Class (mkClass "UIHeight" (Some (PFunction "UIHeight")))));
    reflexivity.
Defined.

(** X7: when a decorated class declares no [className] of its own and
    extends a decorated class whose [className] is a function, and no
    decorated class further up the chain sees that className at its own
    prototype, [setStatus('ready')] is called exactly twice: by the wrapper
    of the class it extends, before the derived constructor's body runs,
    and by its own wrapper at the end; [new] does not throw in either
    build. *)
Theorem X7_decorated_heir_marked_ready_twice (isProd : bool) (status0 : string)
    (body : ClassBody) (B : JsClass) :
  className body = None ->
  isFunction (elm_className (Prototype B)) = true ->
  className_differs (decorated_derived body B) B = true ->
  new isProd status0 (decorated_derived body B) =
    Normal (mkInstance (decorated_derived body B) "ready",
            constructors B ++
            [SetStatus (component B) "ready";
             RunConstructor (class_name body);
             SetStatus (decorated_derived body B) "ready"]) /\
  filter is_SetStatus
    (constructors B ++
     [SetStatus (component B) "ready";
      RunConstructor (class_name body);
      SetStatus (decorated_derived body B) "ready"]) =
    [SetStatus (component B) "ready";
     SetStatus (decorated_derived body B) "ready"].
Proof.
  intros N F D. set (K := decorated_derived body B). split.
  - destruct (run_wrapper_matching isProd B (mkInstance K status0))
      as (this1 & evs & E & P & R).
    + simpl. lia.
    + unfold cn. simpl. rewrite N. simpl in F.
      destruct (get_className B) as [[r|]|]; try discriminate F.
      simpl. apply String.eqb_refl.
    + assert (L : depth B < depth (proto (mkInstance K status0))) by (simpl; lia).
      rewrite (run_ancestor_quiet isProd B (mkInstance K status0) L D) in E.
      inversion E; subst this1 evs.
      assert (E' : run isProd (ClassExtends body (component B)) (mkInstance K status0) =
                   Normal (setStatus "ready" (mkInstance K status0),
                           (constructors B ++ [SetStatus (component B) "ready"]) ++
                           [RunConstructor (class_name body)])).
      { rewrite run_extends, R. reflexivity. }
      assert (P' : proto (setStatus "ready" (mkInstance K status0)) =
                   component (ClassExtends body (component B))) by reflexivity.
      subst K. unfold decorated_derived in *.
      rewrite (new_component isProd status0 _ _ _ E' P').
      simpl. rewrite N. simpl in F. rewrite F, andb_false_r.
      rewrite <- !app_assoc. reflexivity.
  - rewrite filter_app. simpl.
    assert (Q : filter is_SetStatus (constructors B) = []).
    { clear. induction B as [b | b s IH | s IH]; simpl; [reflexivity | | exact IH].
      rewrite filter_app, IH. reflexivity. }
    rewrite Q. reflexivity.
Qed.

Lemma X7_witness :
  className (mkClass "UIWidth" None) = None /\
  isFunction (elm_className
    (Prototype (Class (mkClass "UIHeight" (Some (PFunction "UIHeight")))))) = true /\
  className_differs UIWidth_inheriting
    (Class (mkClass "UIHeight" (Some (PFunction "UIHeight")))) = true /\
  new false "beforeInit" UIWidth_inheriting =
    Normal (mkInstance UIWidth_inheriting "ready",
            [RunConstructor "UIHeight"; SetStatus UIHeight "ready";
             RunConstructor "UIWidth"; SetStatus UIWidth_inheriting "ready"]).
Proof.
  split; [reflexivity | ].
  split; [reflexivity | ].
  split; [reflexivity | ].
  apply (X7_decorated_heir_marked_ready_twice false "beforeInit"
           (mkClass "UIWidth" None)
           (Class (mkClass "UIHeight" (Some (PFunction "UIHeight")))));
    reflexivity.
Defined.

End ComponentMore.

(** * Further properties of the AI-assistant plugin *)

Module AiAssistantMore.
Import AiAssistant AiAssistantProofs.

(** X8: whatever the host answers, however the callback ends and
    whatever the listeners of the events do, one invocation leaves the
    plugin object as it was, makes no call on the dialog, the container or
    the document, and notifies in one of four ways: not at all; with one
    response event; with one error message followed by one error event of
    the same text; or, when a listener of the response event throws, with
    the response event followed by such a message and error event. *)
Theorem X8_invocation_touches_neither_plugin_nor_dialog (jodit : IJodit)
    (prompt : string) (this : aiAssistant) (past : list HostCall) :
  this_of (onInvokeAiAssistant jodit prompt this past) = this /\
  filter is_ui_or_document_call
    (calls_of (onInvokeAiAssistant jodit prompt this past)) = [] /\
  (filter is_notification (calls_of (onInvokeAiAssistant jodit prompt this past)) = [] \/
   (exists html,
      filter is_notification (calls_of (onInvokeAiAssistant jodit prompt this past)) =
        [EFire "ai-assistant-response" html]) \/
   (exists msg,
      filter is_notification (calls_of (onInvokeAiAssistant jodit prompt this past)) =
        [MessageError msg; EFire "ai-assistant-error" msg]) \/
   (exists html msg,
      filter is_notification (calls_of (onInvokeAiAssistant jodit prompt this past)) =
        [EFire "ai-assistant-response" html;
         MessageError msg; EFire "ai-assistant-error" msg])).
Proof.
  rewrite onInvokeAiAssistant_calls. unfold this_of, calls_of, invocation. simpl.
  split; [reflexivity | ].
  split; [by_outcome; reflexivity | ].
  by_outcome; simpl.
  - right. left. eauto.
  - right. right. right. eauto.
  - right. left. eauto.
  - left. reflexivity.
  - right. right. left. eauto.
  - left. reflexivity.
Qed.

(** *** Cached objects stay *)

Lemma keeps_refl (this : aiAssistant) : keeps this this.
Proof. unfold keeps. auto. Qed.

Lemma keeps_trans (a b c : aiAssistant) : keeps a b -> keeps b c -> keeps a c.
Proof.
  intros (B1 & D1 & C1) (B2 & D2 & C2). unfold keeps.
  split; [congruence | split; auto].
Qed.

Ltac keeps_by_cases this :=
  destruct this as [b [d|] [c|]]; run_plugin; unfold keeps; simpl;
  (split; [reflexivity | split; intros x E; first [exact E | discriminate E]]).

Lemma use_keeps (jodit : IJodit) (u : Use) (this : aiAssistant) (past : list HostCall) :
  keeps this (this_of (use jodit u this past)).
Proof.
  destruct u as [ | | event prompt | html | html ]; unfold use.
  - keeps_by_cases this.
  - keeps_by_cases this.
  - unfold watch.
    destruct (String.eqb event ":generateAiAssistantForm.ai-assistant").
    + keeps_by_cases this.
    + destruct (String.eqb event ":invokeAiAssistant").
      * rewrite onInvokeAiAssistant_calls. apply keeps_refl.
      * apply keeps_refl.
  - keeps_by_cases this.
  - keeps_by_cases this.
Qed.

(** X9: through any sequence of getter reads, events and closure calls the
    plugin's buttons stay the same, and a dialog or container that is
    cached stays the cached one: no use replaces or drops it. *)
Theorem X9_cached_objects_are_never_replaced (jodit : IJodit) (us : list Use)
    (this : aiAssistant) (past : list HostCall) :
  keeps this (this_of (uses jodit us this past)).
Proof.
  revert this past. induction us as [|u us IH]; intros this past; simpl.
  - apply keeps_refl.
  - unfold bind, this_of.
    pose proof (use_keeps jodit u this past) as K. unfold this_of in K.
    destruct (use jodit u this past) as [[a this1] l1]. simpl in K.
    specialize (IH this1 (past ++ l1)). unfold this_of in IH.
    destruct (uses jodit us this1 (past ++ l1)) as [[a2 this2] l2]. simpl in *.
    eapply keeps_trans; eassumption.
Qed.

(** *** Objects are created before they are used *)

Lemma dialog_eqb_refl (d : IDialog) : dialog_eqb d d = true.
Proof. apply Nat.eqb_refl. Qed.

Lemma ui_eqb_refl (c : UiAiAssistant) : ui_eqb c c = true.
Proof. unfold ui_eqb. rewrite Nat.eqb_refl. apply dialog_eqb_refl. Qed.

Ltac tracked :=
  simpl; rewrite ?dialog_eqb_refl, ?ui_eqb_refl; simpl;
  (split; [ intros x E; first [discriminate E | inversion E; subst; reflexivity]
          | reflexivity ]).

(** One use of a coherent plugin keeps it coherent, and its calls name only
    objects that are cached before it or that it has just created. *)
Lemma use_tracks (jodit : IJodit) (u : Use) (this : aiAssistant)
    (past rest : list HostCall) :
  coherent this ->
  coherent (this_of (use jodit u this past)) /\
  created_before_use (option_list (cached___dialog this))
                     (option_list (cached___container this))
                     (calls_of (use jodit u this past) ++ rest) =
    created_before_use
      (option_list (cached___dialog (this_of (use jodit u this past))))
      (option_list (cached___container (this_of (use jodit u this past))))
      rest.
Proof.
  intro H. destruct this as [b [d|] [c|]].
  - (* both cached: the closures hold [d] *)
    assert (Hd : ui_dialog c = d)
      by (pose proof (H c eq_refl) as Hc; simpl in Hc; congruence).
    destruct u as [ | | event prompt | html | html ]; unfold use;
      try (run_plugin; rewrite ?Hd; tracked).
    unfold watch.
    destruct (String.eqb event ":generateAiAssistantForm.ai-assistant");
      [run_plugin; rewrite ?Hd; tracked | ].
    destruct (String.eqb event ":invokeAiAssistant"); [ | run_plugin; tracked].
    rewrite onInvokeAiAssistant_calls. unfold this_of, calls_of, invocation. simpl.
    split; [exact H | ].
    by_outcome; reflexivity.
  - destruct u as [ | | event prompt | html | html ]; unfold use;
      try (run_plugin; tracked).
    unfold watch.
    destruct (String.eqb event ":generateAiAssistantForm.ai-assistant");
      [run_plugin; tracked | ].
    destruct (String.eqb event ":invokeAiAssistant"); [ | run_plugin; tracked].
    rewrite onInvokeAiAssistant_calls. unfold this_of, calls_of, invocation. simpl.
    split; [exact H | ].
    by_outcome; reflexivity.
  - specialize (H c eq_refl). discriminate H.
  - destruct u as [ | | event prompt | html | html ]; unfold use;
      try (run_plugin; tracked).
    unfold watch.
    destruct (String.eqb event ":generateAiAssistantForm.ai-assistant");
      [run_plugin; tracked | ].
    destruct (String.eqb event ":invokeAiAssistant"); [ | run_plugin; tracked].
    rewrite onInvokeAiAssistant_calls. unfold this_of, calls_of, invocation. simpl.
    split; [exact H | ].
    by_outcome; reflexivity.
Qed.

Lemma uses_tracks (jodit : IJodit) (us : list Use) :
  forall this past rest,
    coherent this ->
    coherent (this_of (uses jodit us this past)) /\
    created_before_use (option_list (cached___dialog this))
                       (option_list (cached___container this))
                       (calls_of (uses jodit us this past) ++ rest) =
      created_before_use
        (option_list (cached___dialog (this_of (uses jodit us this past))))
        (option_list (cached___container (this_of (uses jodit us this past))))
        rest.
Proof.
  induction us as [|u us IH]; intros this past rest H; simpl.
  - split; [exact H | reflexivity].
  - unfold bind, this_of, calls_of.
    pose proof (use_tracks jodit u this past) as U. unfold this_of, calls_of in U.
    destruct (use jodit u this past) as [[a this1] l1]. simpl in U.
    specialize (IH this1 (past ++ l1) rest). unfold this_of, calls_of in IH.
    destruct (uses jodit us this1 (past ++ l1)) as [[a2 this2] l2]. simpl in *.
    destruct (U (l2 ++ rest) H) as [H1 E1]. destruct (IH H1) as [H2 E2].
    split; [exact H2 | ]. rewrite <- app_assoc, E1. exact E2.
Qed.

(** X10: in every life of the plugin, teardown included, each call that
    opens, closes or destructs a dialog, sets a prompt or destructs a
    container names an object that an earlier call of the same life
    created, and the container is created with an already created dialog
    in its closures. *)
Theorem X10_objects_are_created_before_use (jodit : IJodit) (us : list Use)
    (past0 past1 : list HostCall) :
  created_before_use [] []
    (calls_of (lifetime jodit us past0) ++
     calls_of (beforeDestruct (this_of (lifetime jodit us past0)) past1)) = true.
Proof.
  unfold lifetime. simpl.
  assert (H0 : coherent (fst constructor)) by (intros c E; discriminate E).
  pose proof (uses_tracks jodit us (fst constructor) (past0 ++ [ExtendLang])) as T.
  unfold this_of, calls_of in *. simpl in *.
  destruct (uses jodit us _ (past0 ++ [ExtendLang])) as [[a this1] l1]. simpl in *.
  destruct (T (snd (beforeDestruct this1 past1)) H0) as [_ E].
  rewrite E. rewrite beforeDestruct_calls. simpl.
  destruct this1 as [b [d|] [c|]]; simpl;
    rewrite ?dialog_eqb_refl, ?ui_eqb_refl; reflexivity.
Qed.

(** X11: a second form event creates nothing: after one
    [':generateAiAssistantForm.ai-assistant'] event, the next one opens the
    same dialog on the same container, sets the new prompt and leaves the
    plugin object as it is. *)
Theorem X11_second_form_event_reuses_dialog_and_container (jodit : IJodit)
    (p1 p2 : string) (this : aiAssistant) (past : list HostCall) :
  exists d c,
    cached___dialog
      (this_of (onGenerateAiAssistantForm jodit p1 this past)) = Some d /\
    cached___container
      (this_of (onGenerateAiAssistantForm jodit p1 this past)) = Some c /\
    onGenerateAiAssistantForm jodit p2
      (this_of (onGenerateAiAssistantForm jodit p1 this past))
      (past ++ calls_of (onGenerateAiAssistantForm jodit p1 this past)) =
      (tt, this_of (onGenerateAiAssistantForm jodit p1 this past),
       [DialogOpen d c "AI Assistant"; SetPrompt c p2]).
Proof.
  destruct this as [b [d|] [c|]]; run_plugin;
    eexists; eexists;
    (split; [reflexivity | split; [reflexivity | reflexivity]]).
Qed.

(** The closures of a coherent plugin close the dialog that the form event
    opens. *)
Lemma form_then_insert (jodit : IJodit) (p html : string) (this : aiAssistant)
    (past : list HostCall) :
  coherent this ->
  exists d c made,
    calls_of (onGenerateAiAssistantForm jodit p this past) =
      made ++ [DialogOpen d c "AI Assistant"; SetPrompt c p] /\
    calls_of (use jodit (CallOnInsert html)
                (this_of (onGenerateAiAssistantForm jodit p this past))
                (past ++ calls_of (onGenerateAiAssistantForm jodit p this past))) =
      [SFocus; SInsertHTML html; DialogClose d] /\
    filter is_close
      (calls_of (use jodit (CallOnInsertAfter html)
                   (this_of (onGenerateAiAssistantForm jodit p this past))
                   (past ++ calls_of (onGenerateAiAssistantForm jodit p this past)))) =
      [DialogClose d].
Proof.
  intro H. destruct this as [b [d|] [c|]].
  - assert (Hd : ui_dialog c = d)
      by (pose proof (H c eq_refl) as Hc; simpl in Hc; congruence).
    exists d, c, []. unfold use. run_plugin. rewrite Hd. repeat split.
  - unfold use. run_plugin. eexists d, _, [_]. repeat split.
  - specialize (H c eq_refl). discriminate H.
  - unfold use. run_plugin. eexists _, _, [_; _]. repeat split.
Qed.

(** X12: at any point of the plugin's life, when a form event is followed
    by the container calling [onInsert] or [onInsertAfter], the dialog that
    the closure closes is the dialog that the form event opened. *)
Theorem X12_insert_closes_the_opened_dialog (jodit : IJodit) (us : list Use)
    (past0 past : list HostCall) (p html : string) :
  exists d c made,
    calls_of (onGenerateAiAssistantForm jodit p
                (this_of (lifetime jodit us past0)) past) =
      made ++ [DialogOpen d c "AI Assistant"; SetPrompt c p] /\
    calls_of (use jodit (CallOnInsert html)
                (this_of (onGenerateAiAssistantForm jodit p
                            (this_of (lifetime jodit us past0)) past))
                (past ++ calls_of (onGenerateAiAssistantForm jodit p
                                     (this_of (lifetime jodit us past0)) past))) =
      [SFocus; SInsertHTML html; DialogClose d] /\
    filter is_close
      (calls_of (use jodit (CallOnInsertAfter html)
                   (this_of (onGenerateAiAssistantForm jodit p
                               (this_of (lifetime jodit us past0)) past))
                   (past ++ calls_of (onGenerateAiAssistantForm jodit p
                                        (this_of (lifetime jodit us past0)) past)))) =
      [DialogClose d].
Proof.
  apply form_then_insert.
  destruct (lifetime_agrees jodit us past0) as (_ & _ & H). exact H.
Qed.

End AiAssistantMore.
